(** * PyCompiler command-line front-end: model of [src/cli.py]

    The module [src/cli.py] holds the class [CompilerCLI]: the argument
    parser, the help and information screens and the build pipeline that
    drives a [Builder] through its four stages.  The classes [Config] and
    [Builder] come from [src.builder]; the front-end only calls them, so
    they enter the model as collaborators whose calls either return or
    raise.  Python exceptions are explicit results, the outside world is an
    explicit state, and everything the front-end prints or calls is logged
    in the order it happens. *)

From Stdlib Require Import ZArith Lia.
From stdpp Require Import base tactics option list strings pretty gmap.

Open Scope string_scope.
Open Scope list_scope.
Open Scope Z_scope.

(** ** Exceptions and results *)

(** The classes of [BaseException] that [cli.py] tells apart.
    [Exception msg] stands for an instance of any subclass of [Exception]
    whose [str()] is [msg]; [SystemExit code] is what [sys.exit(code)]
    raises. *)
Inductive exn : Type :=
| KeyboardInterrupt
| SystemExit (code : Z)
| Exception (msg : string).

Inductive result (A : Type) : Type :=
| Returns (a : A)
| Raises (e : exn).
Arguments Returns {A} a.
Arguments Raises {A} e.

Definition raised {A} (r : result A) : option exn :=
  match r with
  | Returns _ => None
  | Raises e => Some e
  end.

(** What the shell sees when [main()] ends with result [r]: a normal
    return is status 0; of the code of a [SystemExit] the process status
    keeps the low eight bits ([sys.exit(256)] is status 0, [sys.exit(-1)]
    is status 255); an uncaught [KeyboardInterrupt] ends the process
    through SIGINT (status 130); any other uncaught exception prints a
    traceback and gives status 1. *)
Definition exit_status {A} (r : result A) : Z :=
  match r with
  | Returns _ => 0
  | Raises (SystemExit code) => Z.modulo code 256
  | Raises KeyboardInterrupt => 130
  | Raises (Exception _) => 1
  end.

(** ** Data *)

(** The attributes of a [Config] object that the front-end reads. *)
Record ProjectConfig : Type := {
  project_name : string;
  main_file : string;
  output_name : string;
  icon_file : option string;
  project_libs : list string;
  include_packages : list string
}.

(** The namespace [argparse] hands to [run]. *)
Record Namespace : Type := {
  config : string;
  info : bool;
  show_help : bool
}.

(** [rich] objects, as far as their content goes: a [Text] is its list of
    appended spans with their styles; paddings and column styles are left
    out. *)
Definition Text : Type := list (string * string).

Inductive renderable : Type :=
| Panel (body : Text) (title : option string) (border_style : string)
| Table (title : string) (columns : list string) (rows : list (string * string))
| Markup (text : string).

Inductive stage : Type :=
| CreateTempEnv
| InstallDependencies
| BuildWithNuitka
| Cleanup.

Global Instance stage_eq_dec : EqDecision stage.
Proof. solve_decision. Defined.

(** Calls that leave [cli.py]. *)
Inductive call : Type :=
| ConfigNew (path : string)          (* Config(path) *)
| BuilderNew                         (* Builder(config) *)
| Method (s : stage).                (* builder.<stage>() *)

(** What an execution does, in order. *)
Inductive event : Type :=
| Printed (r : renderable)                        (* self._console.print(r) *)
| Tested (path : string) (found : bool)           (* Path(path).exists() *)
| TestRaised (path : string) (e : exn)            (* the same call, raising *)
| PrintRaised (r : renderable) (msg : string)     (* console.print(r) raising *)
| Called (c : call) (outcome : option exn)        (* None: the call returned *)
| ProgressEnter                                   (* with Progress(...) *)
| ProgressExit
| AddTask (description : string)
| UpdateTask (task : nat) (description : string).

Definition trace : Type := list event.

(** ** The collaborators

    [W] is the state of everything outside [cli.py]: the file system, the
    builder object and its temporary environment.  Each call may change it
    and either returns or raises.  [Path(p).exists()] only reads the world:
    it answers, or raises the [OSError] that [pathlib] does not turn into
    [False] (a name too long, a directory that may not be searched). *)
Record Collaborators (W : Type) : Type := {
  Path_exists : string -> W -> result bool;
  Config : string -> W -> result ProjectConfig * W;
  Builder : ProjectConfig -> W -> result unit * W;
  create_temp_env : W -> result unit * W;
  install_dependencies : W -> result unit * W;
  build_with_nuitka : W -> result unit * W;
  cleanup : W -> result unit * W
}.
Arguments Path_exists {W} _ _ _.
Arguments Config {W} _ _ _.
Arguments Builder {W} _ _ _.
Arguments create_temp_env {W} _ _.
Arguments install_dependencies {W} _ _.
Arguments build_with_nuitka {W} _ _.
Arguments cleanup {W} _ _.

(** ** The monad of the front-end: world state, exceptions, log *)

Section Monad.
Context {W : Type}.

Definition M (A : Type) : Type := W -> result A * W * trace.

Definition ret {A} (a : A) : M A := fun w => (Returns a, w, []).

Definition bind {A B} (m : M A) (k : A -> M B) : M B := fun w =>
  match m w with
  | (Returns a, w1, t1) =>
      match k a w1 with
      | (r, w2, t2) => (r, w2, t1 ++ t2)
      end
  | (Raises e, w1, t1) => (Raises e, w1, t1)
  end.

Definition raise {A} (e : exn) : M A := fun w => (Raises e, w, []).

Definition emit (ev : event) : M unit := fun w => (Returns tt, w, [ev]).

(** A call to a collaborator, logged with its outcome. *)
Definition extern {A} (c : call) (f : W -> result A * W) : M A := fun w =>
  match f w with
  | (r, w1) => (r, w1, [Called c (raised r)])
  end.

(** [try: m  except ...: h e]; the handler [h] re-raises what none of its
    clauses matches. *)
Definition try_except {A} (m : M A) (h : exn -> M A) : M A := fun w =>
  match m w with
  | (Returns a, w1, t1) => (Returns a, w1, t1)
  | (Raises e, w1, t1) =>
      match h e w1 with
      | (r, w2, t2) => (r, w2, t1 ++ t2)
      end
  end.

(** [with Progress(...) as progress: body]: the display starts, the body
    runs, the display stops on the way out whether the body returned or
    raised, and an exception goes on. *)
Definition with_Progress {A} (body : M A) : M A := fun w =>
  match body w with
  | (r, w1, t1) => (r, w1, [ProgressEnter] ++ t1 ++ [ProgressExit])
  end.
End Monad.
Arguments M W A : clear implicits.

Global Instance M_ret {W} : MRet (M W) := @ret W.
Global Instance M_bind {W} : MBind (M W) := fun A B k m => bind m k.

Definition console_print {W} (r : renderable) : M W unit := emit (Printed r).
Definition sys_exit {W A} (code : Z) : M W A := raise (SystemExit code).
Definition add_task {W} (description : string) : M W unit := emit (AddTask description).
Definition update {W} (task : nat) (description : string) : M W unit :=
  emit (UpdateTask task description).

Definition nl : string := String (Ascii.ascii_of_nat 10) EmptyString.

(** ** The console

    [rich] is not part of the repository.  The panels of [cli.py] are built
    from [Text] objects, which [console.print] shows as they are, and the
    one string that [build_project] prints as markup is a literal with
    balanced tags: these prints return.  The cells of the table of
    [show_info] are plain strings taken from the configuration;
    [console.print(table)] parses them as markup and raises [MarkupError]
    on a tag that closes nothing.  [Markup_error r] is the message of that
    exception, [None] when [r] renders. *)
Class Console : Type := { Markup_error : renderable -> option string }.

(** [console.print(r)] for an [r] holding strings parsed as markup: nothing
    reaches the screen when the parse fails. *)
Definition console_print_markup {W} {C : Console} (r : renderable) : M W unit :=
  match Markup_error r with
  | Some msg => fun w => (Raises (Exception msg), w, [PrintRaised r msg])
  | None => console_print r
  end.

(** ** [CompilerCLI] *)

Section CompilerCLI.
Context {W : Type} {C : Console} (X : Collaborators W).

Definition banner_panel : renderable :=
  Panel [("PyCompiler", "bold blue"); (" - Python to Native Builder", "dim")]
        None "blue".

Definition print_banner : M W unit := console_print banner_panel.

Definition help_panel : renderable :=
  Panel [ ("Usage:" +:+ nl, "bold");
          ("  python compiler.py          # Build project" +:+ nl, "white");
          ("  python compiler.py --info    # Show project info" +:+ nl, "white");
          ("  python compiler.py --config my.yaml" +:+ nl, "white");
          ("  python compiler.py --show-help  # Show this help" +:+ nl +:+ nl, "white");
          ("Examples:" +:+ nl, "bold");
          ("  python compiler.py" +:+ nl, "dim");
          ("  python compiler.py --info" +:+ nl, "dim");
          ("  python compiler.py --config my_config.yaml", "dim") ]
        (Some "Help") "green".

Definition print_help : M W unit :=
  print_banner;;
  console_print help_panel.

Definition build_info_panel (cfg : ProjectConfig) : renderable :=
  Panel [ ("Project: ", "bold");
          (project_name cfg +:+ nl, "cyan");
          ("Main: ", "bold");
          (main_file cfg +:+ " → " +:+ output_name cfg, "cyan") ]
        (Some "Build Info") "blue".

Definition success_panel (cfg : ProjectConfig) : renderable :=
  Panel [ ("Build completed successfully!", "bold green");
          (nl +:+ "Output: " +:+ output_name cfg, "cyan") ]
        (Some "Success") "green".

Definition interrupted_line : renderable :=
  Markup (nl +:+ "[yellow]⚠ Build interrupted[/yellow]").

Definition build_failed_panel (msg : string) : renderable :=
  Panel [ ("Build failed!", "bold red");
          (nl +:+ "Error: " +:+ msg, "red") ]
        (Some "Error") "red".

(** The body of the [with Progress(...)] block. *)
Definition pipeline : M W unit :=
  add_task "Creating environment...";;
  extern (Method CreateTempEnv) (create_temp_env X);;
  update 0 "✓ Environment created";;
  add_task "Installing dependencies...";;
  extern (Method InstallDependencies) (install_dependencies X);;
  update 1 "✓ Dependencies installed";;
  add_task "Compiling with Nuitka...";;
  extern (Method BuildWithNuitka) (build_with_nuitka X);;
  update 2 "✓ Compilation completed";;
  add_task "Cleaning up...";;
  extern (Method Cleanup) (cleanup X);;
  update 3 "✓ Cleanup finished".

(** The [try] block of [build_project]. *)
Definition build_body (config_path : string) : M W unit :=
  cfg ← extern (ConfigNew config_path) (Config X config_path);
  console_print (build_info_panel cfg);;
  extern BuilderNew (Builder X cfg);;
  with_Progress pipeline;;
  console_print (success_panel cfg).

(** Its [except] clauses, in order. *)
Definition build_handlers (e : exn) : M W unit :=
  match e with
  | KeyboardInterrupt =>
      console_print interrupted_line;;
      sys_exit 1
  | Exception msg =>
      console_print (build_failed_panel msg);;
      sys_exit 1
  | SystemExit code => raise (SystemExit code)
  end.

Definition build_project (config_path : string) : M W unit :=
  try_except (build_body config_path) build_handlers.

Definition truthy (s : option string) : bool :=
  match s with
  | Some (String _ _) => true
  | _ => false
  end.

Definition info_table (cfg : ProjectConfig) : renderable :=
  let deps_count := length (project_libs cfg) in
  let deps_text :=
    if (0 <? deps_count)%nat then pretty deps_count +:+ " libraries" else "None" in
  let packages_count := length (include_packages cfg) in
  let packages_text :=
    if (0 <? packages_count)%nat then pretty packages_count +:+ " packages" else "None" in
  Table "Project Information" ["Property"; "Value"]
    [ ("Project Name", project_name cfg);
      ("Main File", main_file cfg);
      ("Output Name", output_name cfg);
      ("Icon File",
        if truthy (icon_file cfg) then default "" (icon_file cfg)
        else "[dim]None[/dim]");
      ("Dependencies", deps_text);
      ("Include Packages", packages_text) ].

Definition info_failed_panel (msg : string) : renderable :=
  Panel [ ("Failed to load project info!", "bold red");
          (nl +:+ "Error: " +:+ msg, "red") ]
        (Some "Error") "red".

Definition show_info (config_path : string) : M W unit :=
  try_except
    (cfg ← extern (ConfigNew config_path) (Config X config_path);
     console_print_markup (info_table cfg))
    (fun e =>
       match e with
       | Exception msg => console_print (info_failed_panel msg)
       | _ => raise e
       end).

Definition not_found_panel (path : string) : renderable :=
  Panel [ ("Config file not found: " +:+ path, "red");
          (nl +:+ "Create config.yaml with your project settings", "dim") ]
        (Some "Error") "red".

(** [Path(path).exists()], logged with its answer or with what it raised. *)
Definition path_exists (path : string) : M W bool := fun w =>
  match Path_exists X path w with
  | Returns found => (Returns found, w, [Tested path found])
  | Raises e => (Raises e, w, [TestRaised path e])
  end.

(** [run], from the parsed namespace on. *)
Definition run (args : Namespace) : M W unit :=
  if show_help args then print_help
  else
    print_banner;;
    found ← path_exists (config args);
    (if negb found then
       console_print (not_found_panel (config args));;
       sys_exit 1
     else ret tt);;
    if info args then show_info (config args)
    else build_project (config args).

Definition main (args : Namespace) : M W unit := run args.
End CompilerCLI.

(** The argument parser of [run], for the command lines made of
    [--config V], [-c V], [--info] and [--show-help], the options spelled in
    full and [V] not beginning with a dash.  [None] stands for every other
    command line and says nothing about what [argparse] does with it: it
    ends the process itself on some (usage error, [-h]) and accepts others
    that are left out here (abbreviated options, [--config=V], [-cV], and
    values beginning with a dash such as [-] or [-1]). *)
Fixpoint parse_args_from (ns : Namespace) (argv : list string) : option Namespace :=
  match argv with
  | [] => Some ns
  | a :: rest =>
      if String.eqb a "--info" then
        parse_args_from {| config := config ns; info := true; show_help := show_help ns |} rest
      else if String.eqb a "--show-help" then
        parse_args_from {| config := config ns; info := info ns; show_help := true |} rest
      else if String.eqb a "--config" || String.eqb a "-c" then
        match rest with
        | v :: rest' =>
            if String.prefix "-" v then None
            else parse_args_from {| config := v; info := info ns; show_help := show_help ns |} rest'
        | [] => None
        end
      else None
  end.

Definition parse_args (argv : list string) : option Namespace :=
  parse_args_from {| config := "config.yaml"; info := false; show_help := false |} argv.

(** * The configuration loader

    [Config] is defined in [src/builder.py]; [cli.py] only constructs it
    and reads its attributes.  The loader below follows the contract the
    specification gives for it. *)

Module Loader.

(** Modelled from the spec: the values a top-level key of the project
    file can hold (the file format itself belongs to the missing
    [src/builder.py]): a string, a list of strings, or something else. *)
Inductive value : Type :=
| Str (s : string)
| Int (z : Z)
| Bool (b : bool)
| Null
| Seq (items : list string).

Inductive load_error : Type :=
| ConfigNotFound
| ConfigInvalid.

Inductive loaded : Type :=
| Loaded (cfg : ProjectConfig)
| Failed (err : load_error).

Definition required_fields : list string :=
  ["project_name"; "main_file"; "output_name"].

(** Modelled from the spec: a required field of the missing loader is there
    and well-formed when its key holds a string. *)
Definition required (m : gmap string value) (key : string) : option string :=
  match m !! key with
  | Some (Str s) => Some s
  | _ => None
  end.

Definition strings_of (v : option value) : list string :=
  match v with
  | Some (Seq items) => items
  | _ => []
  end.

(** Modelled from the spec: [load(path) -> ProjectConfig], the contract of
    the configuration loader whose code ([Config] in [src/builder.py]) is
    missing.  The file system maps a path to the top-level keys of the file
    found there.  [load] fails with [ConfigNotFound] when the path does not
    exist and with [ConfigInvalid] when one of [project_name], [main_file],
    [output_name] is missing or not a string; otherwise it returns the
    structure with every field populated, the optional ones empty or absent
    when the file does not give them. *)
Definition load (files : gmap string (gmap string value)) (path : string) : loaded :=
  match files !! path with
  | None => Failed ConfigNotFound
  | Some m =>
      match required m "project_name", required m "main_file", required m "output_name" with
      | Some name, Some main, Some output =>
          Loaded {| project_name := name;
                    main_file := main;
                    output_name := output;
                    icon_file := required m "icon_file";
                    project_libs := strings_of (m !! "project_libs");
                    include_packages := strings_of (m !! "include_packages") |}
      | _, _, _ => Failed ConfigInvalid
      end
  end.

(** A project file without [output_name]. *)
Definition incomplete : gmap string value :=
  <["project_name" := Str "demo"]> (<["main_file" := Str "app.py"]> ∅).

End Loader.

(** ** Observations on an execution *)

Definition result_of {W A} (x : result A * W * trace) : result A := x.1.1.
Definition world_of {W A} (x : result A * W * trace) : W := x.1.2.
Definition trace_of {W A} (x : result A * W * trace) : trace := x.2.

(** The calls to collaborators, with their outcomes, in order. *)
Definition calls (t : trace) : list (call * option exn) :=
  omap (fun ev => match ev with Called c o => Some (c, o) | _ => None end) t.

(** The build stages that were invoked, in order. *)
Definition stages_called (t : trace) : list stage :=
  omap (fun co => match co with (Method s, _) => Some s | _ => None end) (calls t).

(** What went to the console, in order. *)
Definition printed (t : trace) : list renderable :=
  omap (fun ev => match ev with Printed r => Some r | _ => None end) t.

(** The paths whose existence was tested. *)
Definition paths_tested (t : trace) : list string :=
  omap (fun ev =>
          match ev with
          | Tested p _ => Some p
          | TestRaised p _ => Some p
          | _ => None
          end) t.

(** How many times [cleanup()] was invoked. *)
Definition is_cleanup (s : stage) : bool :=
  match s with
  | Cleanup => true
  | _ => false
  end.

Definition cleanup_calls (t : trace) : nat :=
  length (List.filter is_cleanup (stages_called t)).

(** ** The pipeline as a loop over its stages

    [pipeline] is written out stage by stage; the same steps, driven by the
    list of stages, give a form on which induction works. *)

Definition stage_order : list stage :=
  [CreateTempEnv; InstallDependencies; BuildWithNuitka; Cleanup].

Definition method {W} (X : Collaborators W) (s : stage) : W -> result unit * W :=
  match s with
  | CreateTempEnv => create_temp_env X
  | InstallDependencies => install_dependencies X
  | BuildWithNuitka => build_with_nuitka X
  | Cleanup => cleanup X
  end.

Definition starting (s : stage) : string :=
  match s with
  | CreateTempEnv => "Creating environment..."
  | InstallDependencies => "Installing dependencies..."
  | BuildWithNuitka => "Compiling with Nuitka..."
  | Cleanup => "Cleaning up..."
  end.

Definition finished (s : stage) : string :=
  match s with
  | CreateTempEnv => "✓ Environment created"
  | InstallDependencies => "✓ Dependencies installed"
  | BuildWithNuitka => "✓ Compilation completed"
  | Cleanup => "✓ Cleanup finished"
  end.

Fixpoint run_stages {W} (X : Collaborators W) (task : nat) (ss : list stage) : M W unit :=
  match ss with
  | [] => mret tt
  | s :: rest =>
      add_task (starting s);;
      extern (Method s) (method X s);;
      update task (finished s);;
      run_stages X (S task) rest
  end.

(** The calls of a run in which every stage of [ss] returned. *)
Definition returned (ss : list stage) : list (call * option exn) :=
  map (fun s => (Method s, None)) ss.

(** All the calls a build can make, in the order it makes them. *)
Definition call_order (config_path : string) : list call :=
  ConfigNew config_path :: BuilderNew :: map Method stage_order.

(** What the [except] clauses of [build_project] print for [e], and the
    exception the process is left with. *)
Definition reported (e : exn) : list renderable :=
  match e with
  | KeyboardInterrupt => [interrupted_line]
  | Exception msg => [build_failed_panel msg]
  | SystemExit _ => []
  end.

Definition leaves_with (e : exn) : exn :=
  match e with
  | SystemExit code => SystemExit code
  | _ => SystemExit 1
  end.

(** The ways a run of [build_project] can go, seen from its result and its
    log: either all six calls returned, or the calls stop at the first one
    that raised and the handler of its exception takes over. *)
Inductive build_run (config_path : string) : result unit -> trace -> Prop :=
| build_completed (t : trace) (cfg : ProjectConfig) :
    calls t = map (fun c => (c, None)) (call_order config_path) ->
    printed t = [build_info_panel cfg; success_panel cfg] ->
    build_run config_path (Returns tt) t
| build_aborted (body : trace) (pre post : list call) (c : call) (e : exn) :
    call_order config_path = pre ++ c :: post ->
    calls body = map (fun c => (c, None)) pre ++ [(c, Some e)] ->
    (forall r, r ∈ printed body -> exists cfg, r = build_info_panel cfg) ->
    build_run config_path (Raises (leaves_with e)) (body ++ map Printed (reported e)).

(** ** A scripted world for the examples

    The world is the journal of the stages the builder went through; the
    script fixes which paths exist and how each call ends.  As on a file
    system whose names hold 255 characters, the test of a longer path
    raises. *)
Record script : Type := {
  on_disk : list string;
  loads : result ProjectConfig;
  builds : result unit;
  ends : stage -> result unit
}.

Definition scripted (s : script) : Collaborators (list stage) := {|
  Path_exists p _ :=
    if (255 <? String.length p)%nat
    then Raises (Exception "[Errno 36] File name too long")
    else Returns (bool_decide (p ∈ on_disk s));
  Config _ w := (loads s, w);
  Builder _ w := (builds s, w);
  create_temp_env w := (ends s CreateTempEnv, w ++ [CreateTempEnv]);
  install_dependencies w := (ends s InstallDependencies, w ++ [InstallDependencies]);
  build_with_nuitka w := (ends s BuildWithNuitka, w ++ [BuildWithNuitka]);
  cleanup w := (ends s Cleanup, w ++ [Cleanup])
|}.

Definition demo : ProjectConfig := {|
  project_name := "demo";
  main_file := "app.py";
  output_name := "app";
  icon_file := None;
  project_libs := [];
  include_packages := []
|}.

(** Everything in place and every call returns. *)
Definition all_fine : script := {|
  on_disk := ["config.yaml"];
  loads := Returns demo;
  builds := Returns tt;
  ends _ := Returns tt
|}.

(** As [all_fine], but stage [s] raises [e]. *)
Definition failing_at (s : stage) (e : exn) : script := {|
  on_disk := ["config.yaml"];
  loads := Returns demo;
  builds := Returns tt;
  ends s' := if decide (s' = s) then Raises e else Returns tt
|}.

(** No configuration file; [Config] would raise on the missing file. *)
Definition no_config : script := {|
  on_disk := [];
  loads := Raises (Exception "[Errno 2] No such file or directory: 'config.yaml'");
  builds := Returns tt;
  ends _ := Returns tt
|}.

(** The configuration file is there but [Config] rejects it. *)
Definition bad_config : script := {|
  on_disk := ["config.yaml"];
  loads := Raises (Exception "'project_name'");
  builds := Returns tt;
  ends _ := Returns tt
|}.

(** A console for the examples: it rejects a table with a cell that begins
    with a closing tag. *)
Global Instance tags_checked : Console := {|
  Markup_error r :=
    match r with
    | Table _ _ rows =>
        if existsb (fun row : string * string => String.prefix "[/" row.2) rows
        then Some "closing tag at position 0 doesn't match any open tag"
        else None
    | _ => None
    end
|}.

(** A configuration whose name cannot be rendered as markup. *)
Definition stray_tag : ProjectConfig := {|
  project_name := "[/b]demo";
  main_file := "app.py";
  output_name := "app";
  icon_file := None;
  project_libs := [];
  include_packages := []
|}.

(** A name of 256 characters, with no file behind it. *)
Definition long_name : string := String.string_of_list_ascii (repeat (Ascii.ascii_of_nat 97) 256).

Definition build_args : Namespace :=
  {| config := "config.yaml"; info := false; show_help := false |}.
Definition info_args : Namespace :=
  {| config := "config.yaml"; info := true; show_help := false |}.
Definition help_args : Namespace :=
  {| config := "missing.yaml"; info := true; show_help := true |}.

(** ** The progress display, seen from the log *)

(** The descriptions of the tasks added to the display, in order. *)
Definition tasks_added (t : trace) : list string :=
  omap (fun ev => match ev with AddTask d => Some d | _ => None end) t.

(** The tasks marked as completed, each with its new description. *)
Definition tasks_completed (t : trace) : list (nat * string) :=
  omap (fun ev => match ev with UpdateTask i d => Some (i, d) | _ => None end) t.

(** The stages that were invoked and returned. *)
Definition stages_returned (t : trace) : list stage :=
  omap (fun co => match co with (Method s, None) => Some s | _ => None end) (calls t).

(** The starts and stops of the display. *)
Definition is_display (ev : event) : bool :=
  match ev with
  | ProgressEnter | ProgressExit => true
  | _ => false
  end.

Definition display (t : trace) : list event := List.filter is_display t.

(** * Proofs *)

(** ** Symbolic execution *)

Ltac unfold_M :=
  unfold mbind, M_bind, mret, M_ret, bind, ret, extern, try_except,
    with_Progress, path_exists, console_print, sys_exit, raise, add_task,
    update, emit in *.

(** Membership in a list that is written out. *)
Ltac no_member H :=
  repeat (apply elem_of_cons in H as [H|H]; [simplify_eq|]);
  try (apply elem_of_nil in H; contradiction).

Ltac member :=
  repeat first [apply list_elem_of_here | apply list_elem_of_further].

(** ** The model at work *)

Example successful_build :
  main (scripted all_fine) build_args [] =
    (Returns tt,
     [CreateTempEnv; InstallDependencies; BuildWithNuitka; Cleanup],
     [ Printed banner_panel;
       Tested "config.yaml" true;
       Called (ConfigNew "config.yaml") None;
       Printed (build_info_panel demo);
       Called BuilderNew None;
       ProgressEnter;
       AddTask "Creating environment...";
       Called (Method CreateTempEnv) None;
       UpdateTask 0 "✓ Environment created";
       AddTask "Installing dependencies...";
       Called (Method InstallDependencies) None;
       UpdateTask 1 "✓ Dependencies installed";
       AddTask "Compiling with Nuitka...";
       Called (Method BuildWithNuitka) None;
       UpdateTask 2 "✓ Compilation completed";
       AddTask "Cleaning up...";
       Called (Method Cleanup) None;
       UpdateTask 3 "✓ Cleanup finished";
       ProgressExit;
       Printed (success_panel demo) ]).
Proof. reflexivity. Qed.

Example failed_install :
  main (scripted (failing_at InstallDependencies (Exception "pip: exit status 1")))
    build_args [] =
    (Raises (SystemExit 1),
     [CreateTempEnv; InstallDependencies],
     [ Printed banner_panel;
       Tested "config.yaml" true;
       Called (ConfigNew "config.yaml") None;
       Printed (build_info_panel demo);
       Called BuilderNew None;
       ProgressEnter;
       AddTask "Creating environment...";
       Called (Method CreateTempEnv) None;
       UpdateTask 0 "✓ Environment created";
       AddTask "Installing dependencies...";
       Called (Method InstallDependencies) (Some (Exception "pip: exit status 1"));
       ProgressExit;
       Printed (build_failed_panel "pip: exit status 1") ]).
Proof. reflexivity. Qed.

Example interrupted_compile :
  main (scripted (failing_at BuildWithNuitka KeyboardInterrupt)) build_args [] =
    (Raises (SystemExit 1),
     [CreateTempEnv; InstallDependencies; BuildWithNuitka],
     [ Printed banner_panel;
       Tested "config.yaml" true;
       Called (ConfigNew "config.yaml") None;
       Printed (build_info_panel demo);
       Called BuilderNew None;
       ProgressEnter;
       AddTask "Creating environment...";
       Called (Method CreateTempEnv) None;
       UpdateTask 0 "✓ Environment created";
       AddTask "Installing dependencies...";
       Called (Method InstallDependencies) None;
       UpdateTask 1 "✓ Dependencies installed";
       AddTask "Compiling with Nuitka...";
       Called (Method BuildWithNuitka) (Some KeyboardInterrupt);
       ProgressExit;
       Printed interrupted_line ]).
Proof. reflexivity. Qed.

Example info_on_demo :
  printed (trace_of (main (scripted all_fine) info_args [])) =
    [ banner_panel;
      Table "Project Information" ["Property"; "Value"]
        [ ("Project Name", "demo"); ("Main File", "app.py"); ("Output Name", "app");
          ("Icon File", "[dim]None[/dim]"); ("Dependencies", "None");
          ("Include Packages", "None") ] ].
Proof. reflexivity. Qed.

Example info_with_stray_tag :
  main (scripted {| on_disk := ["config.yaml"]; loads := Returns stray_tag;
                    builds := Returns tt; ends _ := Returns tt |})
       info_args [] =
    (Returns tt, [],
     [ Printed banner_panel;
       Tested "config.yaml" true;
       Called (ConfigNew "config.yaml") None;
       PrintRaised (info_table stray_tag)
         "closing tag at position 0 doesn't match any open tag";
       Printed (info_failed_panel
                  "closing tag at position 0 doesn't match any open tag") ]).
Proof. reflexivity. Qed.

Example name_too_long :
  main (scripted all_fine) {| config := long_name; info := false; show_help := false |} [] =
    (Raises (Exception "[Errno 36] File name too long"), [],
     [ Printed banner_panel;
       TestRaised long_name (Exception "[Errno 36] File name too long") ]).
Proof. reflexivity. Qed.

Example parse_info_with_config :
  parse_args ["--info"; "-c"; "my.yaml"] =
    Some {| config := "my.yaml"; info := true; show_help := false |}.
Proof. reflexivity. Qed.

(** ** Basic facts *)

Lemma calls_app (t1 t2 : trace) : calls (t1 ++ t2) = calls t1 ++ calls t2.
Proof. apply omap_app. Qed.

Lemma printed_app (t1 t2 : trace) : printed (t1 ++ t2) = printed t1 ++ printed t2.
Proof. apply omap_app. Qed.

(** [pipeline] is the loop over [stage_order], tasks numbered from 0. *)
Lemma pipeline_unroll {W} (X : Collaborators W) (w : W) :
  pipeline X w = run_stages X 0 stage_order w.
Proof.
  unfold pipeline, stage_order, run_stages, method. unfold_M.
  repeat case_match; simplify_eq/=; reflexivity.
Qed.

(** A run of the loop calls the stages in order and stops at the first one
    that raises; it prints nothing. *)
Lemma run_stages_calls {W} (X : Collaborators W) (ss : list stage) :
  forall (task : nat) (w : W),
    printed (trace_of (run_stages X task ss w)) = [] /\
    match result_of (run_stages X task ss w) with
    | Returns _ => calls (trace_of (run_stages X task ss w)) = returned ss
    | Raises e =>
        exists pre s post,
          ss = pre ++ s :: post /\
          calls (trace_of (run_stages X task ss w)) = returned pre ++ [(Method s, Some e)]
    end.
Proof.
  induction ss as [|s rest IH]; intros task w; [done|].
  cbn [run_stages]. unfold_M.
  destruct (method X s w) as [[[]|e] w1] eqn:Hs; cbn.
  - destruct (IH (S task) w1) as [IHp IHc].
    unfold result_of, trace_of in *.
    destruct (run_stages X (S task) rest w1) as [[[[]|e] w2] t2] eqn:Hrest; cbn in *.
    + split; [done|]. f_equal. exact IHc.
    + split; [done|]. destruct IHc as (pre & s' & post & -> & Hc).
      exists (s :: pre), s', post. split; [done|]. cbn. f_equal. exact Hc.
  - split; [done|]. by exists [], s, rest.
Qed.

(** ** How a build ends *)

Lemma build_handlers_run {W} (e : exn) (w : W) :
  build_handlers e w = (Raises (leaves_with e), w, map Printed (reported e)).
Proof. by destruct e. Qed.

Lemma printed_reported (e : exn) : printed (map Printed (reported e)) = reported e.
Proof. by destruct e. Qed.

Lemma calls_reported (e : exn) : calls (map Printed (reported e)) = [].
Proof. by destruct e. Qed.

Lemma build_project_run {W} (X : Collaborators W) (config_path : string) (w : W) :
  build_run config_path
    (result_of (build_project X config_path w))
    (trace_of (build_project X config_path w)).
Proof.
  unfold build_project, build_body, result_of, trace_of. unfold_M.
  destruct (Config X config_path w) as [[cfg|e] w1] eqn:Hcfg; cbn.
  2: { rewrite build_handlers_run. cbn.
       apply (build_aborted _ [Called (ConfigNew config_path) (Some e)] []
                (BuilderNew :: map Method stage_order) (ConfigNew config_path) e);
         [done|done|].
       intros r Hr. by apply elem_of_nil in Hr. }
  destruct (Builder X cfg w1) as [[[]|e] w2] eqn:Hb; cbn.
  2: { rewrite build_handlers_run. cbn.
       apply (build_aborted _
                [Called (ConfigNew config_path) None; Printed (build_info_panel cfg);
                 Called BuilderNew (Some e)]
                [ConfigNew config_path] (map Method stage_order) BuilderNew e);
         [done|done|].
       intros r Hr. apply list_elem_of_singleton in Hr. by exists cfg. }
  rewrite pipeline_unroll.
  destruct (run_stages_calls X stage_order 0 w2) as [Hp Hc].
  unfold result_of, trace_of in Hp, Hc.
  destruct (run_stages X 0 stage_order w2) as [[[[]|e] w3] t3]; cbn in *.
  - apply (build_completed _ _ cfg); unfold calls, printed; cbn;
      rewrite !omap_app, ?Hc, ?Hp; done.
  - rewrite build_handlers_run. cbn.
    destruct Hc as (pre & s & post & Hss & Hc).
    apply (build_aborted _
             ([Called (ConfigNew config_path) None; Printed (build_info_panel cfg);
               Called BuilderNew None; ProgressEnter] ++ t3 ++ [ProgressExit])
             (ConfigNew config_path :: BuilderNew :: map Method pre)
             (map Method post) (Method s) e).
    + unfold call_order. rewrite Hss, map_app. done.
    + unfold calls in *; cbn. rewrite !omap_app, Hc.
      unfold returned. cbn. by rewrite map_map, app_nil_r.
    + unfold printed in *; cbn. rewrite !omap_app, Hp. cbn.
      intros r Hr. apply list_elem_of_singleton in Hr. by exists cfg.
Qed.

(** ** The four ways through [run] *)

Lemma main_show_help {W} {C : Console} (X : Collaborators W) (args : Namespace) (w : W) :
  show_help args = true ->
  main X args w = (Returns tt, w, [Printed banner_panel; Printed help_panel]).
Proof. intros H. unfold main, run. by rewrite H. Qed.

Lemma main_not_found {W} {C : Console} (X : Collaborators W) (args : Namespace) (w : W) :
  show_help args = false ->
  Path_exists X (config args) w = Returns false ->
  main X args w =
    (Raises (SystemExit 1), w,
     [Printed banner_panel; Tested (config args) false;
      Printed (not_found_panel (config args))]).
Proof.
  intros Hh He. unfold main, run. rewrite Hh.
  unfold print_banner. unfold_M. by rewrite He.
Qed.

(** When the test of the path itself raises, nothing catches it. *)
Lemma main_test_raised {W} {C : Console} (X : Collaborators W)
    (args : Namespace) (w : W) (e : exn) :
  show_help args = false ->
  Path_exists X (config args) w = Raises e ->
  main X args w =
    (Raises e, w, [Printed banner_panel; TestRaised (config args) e]).
Proof.
  intros Hh He. unfold main, run. rewrite Hh.
  unfold print_banner. unfold_M. by rewrite He.
Qed.

Lemma main_info {W} {C : Console} (X : Collaborators W) (args : Namespace) (w : W) :
  show_help args = false ->
  Path_exists X (config args) w = Returns true ->
  info args = true ->
  main X args w =
    (result_of (show_info X (config args) w),
     world_of (show_info X (config args) w),
     [Printed banner_panel; Tested (config args) true]
       ++ trace_of (show_info X (config args) w)).
Proof.
  intros Hh He Hi. unfold main, run. rewrite Hh, Hi.
  unfold print_banner. unfold_M. rewrite He. cbn.
  by destruct (show_info X (config args) w) as [[[[]|e] w1] t1].
Qed.

Lemma main_build {W} {C : Console} (X : Collaborators W) (args : Namespace) (w : W) :
  show_help args = false ->
  Path_exists X (config args) w = Returns true ->
  info args = false ->
  main X args w =
    (result_of (build_project X (config args) w),
     world_of (build_project X (config args) w),
     [Printed banner_panel; Tested (config args) true]
       ++ trace_of (build_project X (config args) w)).
Proof.
  intros Hh He Hi. unfold main, run. rewrite Hh, Hi.
  unfold print_banner. unfold_M. rewrite He. cbn.
  by destruct (build_project X (config args) w) as [[[[]|e] w1] t1].
Qed.

(** [show_info] makes one call, [Config]; an [Exception] from it or from
    the print of the table is reported and swallowed, anything else goes
    on. *)
Lemma show_info_run {W} {C : Console} (X : Collaborators W) (config_path : string) (w : W) :
  show_info X config_path w =
    match Config X config_path w with
    | (Returns cfg, w1) =>
        match Markup_error (info_table cfg) with
        | None =>
            (Returns tt, w1,
             [Called (ConfigNew config_path) None; Printed (info_table cfg)])
        | Some msg =>
            (Returns tt, w1,
             [Called (ConfigNew config_path) None;
              PrintRaised (info_table cfg) msg;
              Printed (info_failed_panel msg)])
        end
    | (Raises (Exception msg), w1) =>
        (Returns tt, w1,
         [Called (ConfigNew config_path) (Some (Exception msg));
          Printed (info_failed_panel msg)])
    | (Raises e, w1) =>
        (Raises e, w1, [Called (ConfigNew config_path) (Some e)])
    end.
Proof.
  unfold show_info, console_print_markup. unfold_M.
  destruct (Config X config_path w) as [[cfg|[]] w1]; try done.
  by destruct (Markup_error (info_table cfg)).
Qed.

(** A build invocation is the banner, the test of the path, then a run of
    [build_project]. *)
Lemma main_build_run {W} {C : Console} (X : Collaborators W) (args : Namespace) (w : W) :
  show_help args = false ->
  info args = false ->
  Path_exists X (config args) w = Returns true ->
  exists t,
    trace_of (main X args w) = [Printed banner_panel; Tested (config args) true] ++ t /\
    build_run (config args) (result_of (main X args w)) t.
Proof.
  intros Hh Hi He. rewrite main_build by done.
  eexists; split; [reflexivity|]. apply build_project_run.
Qed.

(** Seen from the log, an execution of [main] either makes no call at all
    (help, missing file, a test of the path that raised), or the single call
    of [--info], or is a build. *)
Lemma main_cases {W} {C : Console} (X : Collaborators W) (args : Namespace) (w : W) :
  calls (trace_of (main X args w)) = [] \/
  (exists o, calls (trace_of (main X args w)) = [(ConfigNew (config args), o)]) \/
  (show_help args = false /\ info args = false /\
   Path_exists X (config args) w = Returns true /\
   exists t,
     trace_of (main X args w) = [Printed banner_panel; Tested (config args) true] ++ t /\
     build_run (config args) (result_of (main X args w)) t).
Proof.
  destruct (show_help args) eqn:Hh.
  { left. by rewrite main_show_help. }
  destruct (Path_exists X (config args) w) as [[|]|e] eqn:He.
  2: { left. by rewrite main_not_found. }
  2: { left. by rewrite (main_test_raised X args w e). }
  destruct (info args) eqn:Hi.
  - right; left. rewrite main_info, show_info_run by done.
    destruct (Config X (config args) w) as [[cfg|[]] w1]; cbn; eauto.
    destruct (Markup_error (info_table cfg)); cbn; eauto.
  - right; right. repeat split. by apply main_build_run.
Qed.

(** Where [call_order] can be cut: the call that raised is one of the six,
    and the calls before it are fixed by it. *)
Lemma call_order_cut (config_path : string) (pre post : list call) (c : call) :
  call_order config_path = pre ++ c :: post ->
  (pre = [] /\ c = ConfigNew config_path) \/
  (pre = [ConfigNew config_path] /\ c = BuilderNew) \/
  (exists before s rest,
     stage_order = before ++ s :: rest /\
     pre = ConfigNew config_path :: BuilderNew :: map Method before /\
     c = Method s).
Proof.
  unfold call_order. intros H.
  destruct pre as [|c1 pre]; [left; by simplify_eq/=|].
  destruct pre as [|c2 pre]; [right; left; by simplify_eq/=|].
  right; right. cbn in H. injection H as -> -> H.
  destruct pre as [|c3 pre]; simplify_eq/=.
  { by exists [], CreateTempEnv, [InstallDependencies; BuildWithNuitka; Cleanup]. }
  destruct pre as [|c4 pre]; simplify_eq/=.
  { by exists [CreateTempEnv], InstallDependencies, [BuildWithNuitka; Cleanup]. }
  destruct pre as [|c5 pre]; simplify_eq/=.
  { by exists [CreateTempEnv; InstallDependencies], BuildWithNuitka, [Cleanup]. }
  destruct pre as [|c6 pre]; simplify_eq/=.
  { by exists [CreateTempEnv; InstallDependencies; BuildWithNuitka], Cleanup, []. }
  by destruct pre.
Qed.

Lemma calls_banner (config_path : string) (found : bool) (t : trace) :
  calls ([Printed banner_panel; Tested config_path found] ++ t) = calls t.
Proof. done. Qed.

Lemma printed_banner (config_path : string) (found : bool) (t : trace) :
  printed ([Printed banner_panel; Tested config_path found] ++ t) = banner_panel :: printed t.
Proof. done. Qed.

(** Where [stage_order] can be cut. *)
Lemma stage_order_cut (before rest : list stage) (s : stage) :
  stage_order = before ++ s :: rest ->
  (before = [] /\ s = CreateTempEnv) \/
  (before = [CreateTempEnv] /\ s = InstallDependencies) \/
  (before = [CreateTempEnv; InstallDependencies] /\ s = BuildWithNuitka) \/
  (before = [CreateTempEnv; InstallDependencies; BuildWithNuitka] /\ s = Cleanup).
Proof.
  unfold stage_order. intros H.
  do 4 (destruct before as [|? before]; [simplify_eq/=; tauto | simplify_eq/=]).
  by destruct before.
Qed.

(** Case analysis on an execution of [main]: no call; the call of
    [--info]; a completed build; a build aborted by [Config], by [Builder]
    or by one of the stages. *)
Ltac analyse_main X args w :=
  let Hrun := fresh "Hrun" in
  let Hcut := fresh "Hcut" in
  destruct (main_cases X args w)
    as [Hcalls | [[o Hcalls] | (Hhelp & Hinfo & Hfound & t & Ht & Hrun)]];
  [ | | rewrite Ht in *;
        inversion Hrun
          as [t' cfg Hcalls Hprinted Hres Ht'
             | body pre post c e Hcut Hcalls Hshown Hres Ht'];
        clear Hrun; subst t;
        [ | apply call_order_cut in Hcut
              as [[-> ->] | [[-> ->] | (before & s' & rest & Hcut & -> & ->)]];
            [ | | apply stage_order_cut in Hcut
                    as [[-> ->] | [[-> ->] | [[-> ->] | [-> ->]]]] ] ] ].


(** * The build pipeline *)

(** C1 (as amended). In a build, [cleanup()] is invoked exactly once when
    [create_temp_env()], [install_dependencies()] and [build_with_nuitka()]
    all returned, and not at all when [Config()], [Builder()] or one of
    these three stages raised; it is never invoked twice. *)
Theorem cleanup_runs_only_after_compile {W} {C : Console} (X : Collaborators W)
    (args : Namespace) (w : W) :
  show_help args = false ->
  info args = false ->
  Path_exists X (config args) w = Returns true ->
  (cleanup_calls (trace_of (main X args w)) <= 1)%nat /\
  ((forall s, s <> Cleanup -> (Method s, None) ∈ calls (trace_of (main X args w)))
     <-> cleanup_calls (trace_of (main X args w)) = 1%nat) /\
  (forall c e, c <> Method Cleanup ->
     (c, Some e) ∈ calls (trace_of (main X args w)) ->
     cleanup_calls (trace_of (main X args w)) = 0%nat).
Proof.
  intros _ _ _.
  analyse_main X args w;
    unfold cleanup_calls, stages_called;
    rewrite ?calls_banner, ?calls_app, ?calls_reported, ?app_nil_r, Hcalls; cbn;
    (split; [lia | split; [split |]]).
  all: match goal with
       | |- (forall s, _ -> (Method s, None) ∈ _) -> _ =>
           (* every stage before cleanup returned: one cleanup call *)
           let H := fresh in
           intros H; specialize (H BuildWithNuitka ltac:(done));
           first [done | no_member H]
       | |- _ = 1%nat -> _ =>
           (* one cleanup call: every stage before it returned *)
           let H := fresh in
           intros H s Hs; first [discriminate H | destruct s; [member .. | done]]
       | |- forall c e, c <> Method Cleanup -> _ =>
           (* a call other than cleanup raised: no cleanup call *)
           let H := fresh in
           intros c' e' Hne H; no_member H; done
       end.
Qed.

Lemma cleanup_runs_only_after_compile_witness :
  cleanup_calls (trace_of (main (scripted all_fine) build_args [])) = 1%nat /\
  cleanup_calls
    (trace_of (main (scripted (failing_at BuildWithNuitka (Exception "nuitka: exit status 1")))
                 build_args [])) = 0%nat.
Proof.
  split.
  - destruct (cleanup_runs_only_after_compile (scripted all_fine) build_args [])
      as (_ & Honce & _); [reflexivity | reflexivity | reflexivity |].
    apply Honce. intros s Hs. destruct s; [member .. | done].
  - destruct (cleanup_runs_only_after_compile
                (scripted (failing_at BuildWithNuitka (Exception "nuitka: exit status 1")))
                build_args [])
      as (_ & _ & Hnone); [reflexivity | reflexivity | reflexivity |].
    apply (Hnone (Method BuildWithNuitka) (Exception "nuitka: exit status 1"));
      [discriminate | member].
Defined.

(** C1 as stated fails: a build whose dependency installation raises ends
    without a single call of [cleanup()]. *)
Lemma cleanup_not_on_every_exit_path :
  ~ (forall (W : Type) (C : Console) (X : Collaborators W) (args : Namespace) (w : W),
       show_help args = false ->
       info args = false ->
       Path_exists X (config args) w = Returns true ->
       cleanup_calls (trace_of (main X args w)) = 1%nat).
Proof.
  intros H.
  specialize (H _ tags_checked
                (scripted (failing_at InstallDependencies (Exception "pip: exit status 1")))
                build_args [] eq_refl eq_refl eq_refl).
  discriminate H.
Qed.

(** C2. The stages that run are a prefix of create_temp_env,
    install_dependencies, build_with_nuitka, cleanup, in that order; a stage
    that raises is the last one invoked; so when [install_dependencies()]
    raises, [build_with_nuitka()] is never invoked. *)
Theorem failed_stage_aborts_the_rest {W} {C : Console} (X : Collaborators W)
    (args : Namespace) (w : W) :
  stages_called (trace_of (main X args w)) `prefix_of` stage_order /\
  (forall s e,
     (Method s, Some e) ∈ calls (trace_of (main X args w)) ->
     last (stages_called (trace_of (main X args w))) = Some s /\
     last (calls (trace_of (main X args w))) = Some (Method s, Some e)) /\
  (forall e,
     (Method InstallDependencies, Some e) ∈ calls (trace_of (main X args w)) ->
     stages_called (trace_of (main X args w)) = [CreateTempEnv; InstallDependencies] /\
     BuildWithNuitka ∉ stages_called (trace_of (main X args w))).
Proof.
  analyse_main X args w;
    unfold stages_called;
    rewrite ?calls_banner, ?calls_app, ?calls_reported, ?app_nil_r, Hcalls; cbn;
    (split; [| split]).
  all: match goal with
       | |- _ `prefix_of` _ => by eexists
       | |- forall s e, (Method s, Some e) ∈ _ -> _ =>
           let H := fresh in intros s e' H; no_member H; done
       | |- forall e, (Method InstallDependencies, Some e) ∈ _ -> _ =>
           let H := fresh in
           intros e' H; no_member H;
           (split; [done | intros H; no_member H])
       end.
Qed.

Lemma failed_stage_aborts_the_rest_witness :
  BuildWithNuitka ∉
    stages_called
      (trace_of (main (scripted (failing_at InstallDependencies (Exception "pip: exit status 1")))
                   build_args [])).
Proof.
  destruct (failed_stage_aborts_the_rest
              (scripted (failing_at InstallDependencies (Exception "pip: exit status 1")))
              build_args [])
    as (_ & _ & Hinstall).
  apply (Hinstall (Exception "pip: exit status 1")). member.
Defined.

(** C6. When a stage raises [KeyboardInterrupt], the handler at the top of
    [build_project] takes it: the interrupted stage is the last call made,
    the interrupt line is the last thing the execution does, no build-failed
    panel is printed, and the process leaves with status 1. *)
Theorem interrupt_is_reported_and_exits {W} {C : Console} (X : Collaborators W)
    (args : Namespace) (w : W) (s : stage) :
  (Method s, Some KeyboardInterrupt) ∈ calls (trace_of (main X args w)) ->
  result_of (main X args w) = Raises (SystemExit 1) /\
  exit_status (result_of (main X args w)) = 1 /\
  exit_status (result_of (main X args w)) <> 0 /\
  last (calls (trace_of (main X args w))) = Some (Method s, Some KeyboardInterrupt) /\
  last (trace_of (main X args w)) = Some (Printed interrupted_line) /\
  interrupted_line ∈ printed (trace_of (main X args w)) /\
  (forall msg, build_failed_panel msg ∉ printed (trace_of (main X args w))).
Proof.
  intros Hin.
  analyse_main X args w;
    rewrite ?calls_banner, ?calls_app, ?calls_reported, ?app_nil_r, Hcalls in Hin;
    no_member Hin.
  all: rewrite ?calls_banner, ?calls_app, ?calls_reported, ?app_nil_r, Hcalls.
  all: rewrite printed_banner, printed_app, printed_reported.
  all: repeat (split; [done |]); cbn [reported map].
  all: split; [by rewrite !app_assoc, last_snoc |].
  all: split; [rewrite app_comm_cons; apply elem_of_app; right; member |].
  all: intros msg Hbad; apply elem_of_cons in Hbad as [Hbad | Hbad]; [done |].
  all: apply elem_of_app in Hbad as [Hbad | Hbad]; [| no_member Hbad].
  all: by destruct (Hshown _ Hbad) as [cfg ?].
Qed.

Lemma interrupt_is_reported_and_exits_witness :
  result_of (main (scripted (failing_at BuildWithNuitka KeyboardInterrupt)) build_args [])
    = Raises (SystemExit 1) /\
  last (trace_of (main (scripted (failing_at BuildWithNuitka KeyboardInterrupt)) build_args []))
    = Some (Printed interrupted_line).
Proof.
  destruct (interrupt_is_reported_and_exits
              (scripted (failing_at BuildWithNuitka KeyboardInterrupt))
              build_args [] BuildWithNuitka)
    as (Hres & _ & _ & _ & Hlast & _); [member |].
  split; [exact Hres | exact Hlast].
Defined.




(** * The command-line surface *)







(** C5 as stated fails: with [--info] and a path that is not on disk the
    configuration cannot be loaded and the status is 1, not 0. *)
Lemma info_on_missing_config_exits_1 :
  ~ (forall (W : Type) (C : Console) (X : Collaborators W) (args : Namespace) (w : W),
       show_help args = false ->
       info args = true ->
       (exists msg, (Config X (config args) w).1 = Raises (Exception msg)) ->
       exit_status (result_of (main X args w)) = 0).
Proof.
  intros H.
  specialize (H _ tags_checked (scripted no_config) info_args [] eq_refl eq_refl).
  cbn in H. discriminate H. by eexists.
Qed.

(** C5 (as amended). With [--info] and a configuration path on which
    [exists()] answers [True], the front-end makes the single call
    [Config(path)] and runs no build stage.  It prints the table of the
    loaded configuration when the table renders; when [Config] raises an
    [Exception], or the print of the table does, it prints the error panel
    instead.  In all three cases it returns, with status 0. *)
Theorem info_reports_and_returns {W} {C : Console} (X : Collaborators W) (args : Namespace) (w : W) :
  show_help args = false ->
  info args = true ->
  Path_exists X (config args) w = Returns true ->
  stages_called (trace_of (main X args w)) = [] /\
  (forall c o, (c, o) ∈ calls (trace_of (main X args w)) -> c = ConfigNew (config args)) /\
  (forall cfg,
     (Config X (config args) w).1 = Returns cfg ->
     (Markup_error (info_table cfg) = None ->
        printed (trace_of (main X args w)) = [banner_panel; info_table cfg]) /\
     (forall msg,
        Markup_error (info_table cfg) = Some msg ->
        printed (trace_of (main X args w)) = [banner_panel; info_failed_panel msg]) /\
     calls (trace_of (main X args w)) = [(ConfigNew (config args), None)] /\
     result_of (main X args w) = Returns tt /\
     exit_status (result_of (main X args w)) = 0) /\
  (forall msg,
     (Config X (config args) w).1 = Raises (Exception msg) ->
     printed (trace_of (main X args w)) = [banner_panel; info_failed_panel msg] /\
     calls (trace_of (main X args w)) = [(ConfigNew (config args), Some (Exception msg))] /\
     result_of (main X args w) = Returns tt /\
     exit_status (result_of (main X args w)) = 0).
Proof.
  intros Hh Hi He. rewrite (main_info X args w Hh He Hi), show_info_run.
  destruct (Config X (config args) w) as [[cfg|[| code | msg]] w1]; cbn.
  1: destruct (Markup_error (info_table cfg)) as [bad|] eqn:Hrender; cbn.
  all: split; [done |].
  all: split; [intros c o H; no_member H; done |].
  all: split; [intros ? [= <-] | intros ? [= <-]]; try done.
  - rewrite Hrender. repeat split; try done. by intros ? [= <-].
  - rewrite Hrender. repeat split; done.
Qed.

Lemma info_reports_and_returns_witness :
  exit_status (result_of (main (scripted bad_config) info_args [])) = 0 /\
  printed (trace_of (main (scripted all_fine) info_args [])) =
    [banner_panel; info_table demo] /\
  printed
    (trace_of (main (scripted {| on_disk := ["config.yaml"]; loads := Returns stray_tag;
                                 builds := Returns tt; ends _ := Returns tt |})
                 info_args [])) =
    [banner_panel;
     info_failed_panel "closing tag at position 0 doesn't match any open tag"].
Proof.
  repeat apply conj.
  - destruct (info_reports_and_returns (scripted bad_config) info_args [])
      as (_ & _ & _ & Hfail); [reflexivity | reflexivity | reflexivity |].
    apply (Hfail "'project_name'"). reflexivity.
  - destruct (info_reports_and_returns (scripted all_fine) info_args [])
      as (_ & _ & Hok & _); [reflexivity | reflexivity | reflexivity |].
    destruct (Hok demo eq_refl) as (Htable & _). apply Htable. reflexivity.
  - destruct (info_reports_and_returns
                (scripted {| on_disk := ["config.yaml"]; loads := Returns stray_tag;
                             builds := Returns tt; ends _ := Returns tt |})
                info_args [])
      as (_ & _ & Hok & _); [reflexivity | reflexivity | reflexivity |].
    destruct (Hok stray_tag eq_refl) as (_ & Hbad & _). apply Hbad. reflexivity.
Defined.

(** C7. With [--show-help] the front-end prints the banner and the usage
    panel and returns (status 0): it tests no path, calls no collaborator,
    runs no stage and leaves the world untouched. *)
Theorem show_help_has_no_side_effect {W} {C : Console} (X : Collaborators W) (args : Namespace) (w : W) :
  show_help args = true ->
  printed (trace_of (main X args w)) = [banner_panel; help_panel] /\
  trace_of (main X args w) = map Printed [banner_panel; help_panel] /\
  world_of (main X args w) = w /\
  paths_tested (trace_of (main X args w)) = [] /\
  calls (trace_of (main X args w)) = [] /\
  stages_called (trace_of (main X args w)) = [] /\
  result_of (main X args w) = Returns tt /\
  exit_status (result_of (main X args w)) = 0.
Proof.
  intros Hh. rewrite (main_show_help X args w Hh). by repeat split.
Qed.

Lemma show_help_has_no_side_effect_witness :
  world_of (main (scripted all_fine) help_args [CreateTempEnv]) = [CreateTempEnv] /\
  exit_status (result_of (main (scripted all_fine) help_args [CreateTempEnv])) = 0.
Proof.
  destruct (show_help_has_no_side_effect (scripted all_fine) help_args [CreateTempEnv])
    as (_ & _ & Hw & _ & _ & _ & _ & Hs); [reflexivity |].
  split; [exact Hw | exact Hs].
Defined.

(** C9. [--show-help] wins over every other argument: the execution is the
    same whatever [--config] and [--info] are, the existence of the
    configuration path is never tested, and the status is 0 even where the
    path is missing. *)
Theorem show_help_takes_precedence {W} {C : Console} (X : Collaborators W) (args : Namespace) (w : W) :
  show_help args = true ->
  (forall (path : string) (i : bool),
     main X {| config := path; info := i; show_help := true |} w = main X args w) /\
  (forall found, Tested (config args) found ∉ trace_of (main X args w)) /\
  paths_tested (trace_of (main X args w)) = [] /\
  printed (trace_of (main X args w)) = [banner_panel; help_panel] /\
  exit_status (result_of (main X args w)) = 0.
Proof.
  intros Hh. rewrite (main_show_help X args w Hh). split; [|split].
  - intros path i. by rewrite main_show_help.
  - intros found Hin.
    repeat (apply elem_of_cons in Hin as [Hin|Hin]; [discriminate|]).
    by apply elem_of_nil in Hin.
  - done.
Qed.

Lemma show_help_takes_precedence_witness :
  Path_exists (scripted no_config) (config help_args) [] = Returns false /\
  paths_tested (trace_of (main (scripted no_config) help_args [])) = [] /\
  exit_status (result_of (main (scripted no_config) help_args [])) = 0.
Proof.
  split; [reflexivity |].
  destruct (show_help_takes_precedence (scripted no_config) help_args [])
    as (_ & _ & Hp & _ & Hs); [reflexivity |].
  split; [exact Hp | exact Hs].
Defined.

(** * The configuration contract *)

(** C8. For a file that exists and lacks one of the required fields,
    [load] fails with [ConfigInvalid]; and whatever [load] returns for an
    existing file has its three required fields taken from the file, so no
    partly populated structure comes out. *)
Theorem missing_required_field_is_invalid
    (files : gmap string (gmap string Loader.value)) (path : string)
    (m : gmap string Loader.value) :
  files !! path = Some m ->
  (forall key, key ∈ Loader.required_fields -> m !! key = None ->
     Loader.load files path = Loader.Failed Loader.ConfigInvalid /\
     forall cfg, Loader.load files path <> Loader.Loaded cfg) /\
  (forall cfg, Loader.load files path = Loader.Loaded cfg ->
     m !! "project_name" = Some (Loader.Str (project_name cfg)) /\
     m !! "main_file" = Some (Loader.Str (main_file cfg)) /\
     m !! "output_name" = Some (Loader.Str (output_name cfg))).
Proof.
  intros Hfile. unfold Loader.load. rewrite Hfile. split.
  - intros key Hkey Hnone.
    assert (Loader.required m key = None) as Hreq
      by (unfold Loader.required; by rewrite Hnone).
    unfold Loader.required_fields in Hkey.
    apply elem_of_cons in Hkey as [-> | Hkey]; [by rewrite Hreq |].
    apply elem_of_cons in Hkey as [-> | Hkey];
      [rewrite Hreq; by destruct (Loader.required m "project_name") |].
    apply list_elem_of_singleton in Hkey as ->.
    rewrite Hreq.
    by destruct (Loader.required m "project_name"), (Loader.required m "main_file").
  - intros cfg. unfold Loader.required.
    destruct (m !! "project_name") as [[name| | | |]|]; try done.
    destruct (m !! "main_file") as [[main| | | |]|]; try done.
    destruct (m !! "output_name") as [[output| | | |]|]; try done.
    by intros [= <-].
Qed.

Lemma missing_required_field_is_invalid_witness :
  Loader.load {["config.yaml" := Loader.incomplete]} "config.yaml"
    = Loader.Failed Loader.ConfigInvalid.
Proof.
  destruct (missing_required_field_is_invalid
              {["config.yaml" := Loader.incomplete]} "config.yaml" Loader.incomplete)
    as [Hmissing _]; [reflexivity |].
  apply (Hmissing "output_name"); [| reflexivity].
  unfold Loader.required_fields. member.
Defined.

(** * Further properties of the front-end *)

(** ** The whole log of an execution *)

(** [build_project], call by call. *)
Lemma build_project_unfold {W} (X : Collaborators W) (config_path : string) (w : W) :
  build_project X config_path w =
    match Config X config_path w with
    | (Raises e, w1) =>
        (Raises (leaves_with e), w1,
         [Called (ConfigNew config_path) (Some e)] ++ map Printed (reported e))
    | (Returns cfg, w1) =>
        match Builder X cfg w1 with
        | (Raises e, w2) =>
            (Raises (leaves_with e), w2,
             [Called (ConfigNew config_path) None; Printed (build_info_panel cfg);
              Called BuilderNew (Some e)] ++ map Printed (reported e))
        | (Returns _, w2) =>
            match pipeline X w2 with
            | (Returns _, w3, tp) =>
                (Returns tt, w3,
                 [Called (ConfigNew config_path) None; Printed (build_info_panel cfg);
                  Called BuilderNew None]
                   ++ [ProgressEnter] ++ tp ++ [ProgressExit]
                   ++ [Printed (success_panel cfg)])
            | (Raises e, w3, tp) =>
                (Raises (leaves_with e), w3,
                 [Called (ConfigNew config_path) None; Printed (build_info_panel cfg);
                  Called BuilderNew None]
                   ++ [ProgressEnter] ++ tp ++ [ProgressExit]
                   ++ map Printed (reported e))
            end
        end
    end.
Proof.
  unfold build_project, build_body. unfold_M.
  destruct (Config X config_path w) as [[cfg|e] w1]; cbn;
    [| by rewrite build_handlers_run].
  destruct (Builder X cfg w1) as [[[]|e] w2]; cbn;
    [| by rewrite build_handlers_run].
  destruct (pipeline X w2) as [[[[]|e] w3] tp]; cbn;
    [by rewrite <- app_assoc |].
  rewrite build_handlers_run. cbn. by rewrite <- app_assoc.
Qed.

Lemma stages_called_app (t1 t2 : trace) :
  stages_called (t1 ++ t2) = stages_called t1 ++ stages_called t2.
Proof. unfold stages_called. by rewrite calls_app, omap_app. Qed.

Lemma stages_returned_app (t1 t2 : trace) :
  stages_returned (t1 ++ t2) = stages_returned t1 ++ stages_returned t2.
Proof. unfold stages_returned. by rewrite calls_app, omap_app. Qed.

Lemma tasks_added_app (t1 t2 : trace) :
  tasks_added (t1 ++ t2) = tasks_added t1 ++ tasks_added t2.
Proof. apply omap_app. Qed.

Lemma tasks_completed_app (t1 t2 : trace) :
  tasks_completed (t1 ++ t2) = tasks_completed t1 ++ tasks_completed t2.
Proof. apply omap_app. Qed.

Lemma display_app (t1 t2 : trace) : display (t1 ++ t2) = display t1 ++ display t2.
Proof. apply List.filter_app. Qed.

(** The handlers only print. *)
Lemma reported_only_prints (e : exn) :
  stages_called (map Printed (reported e)) = [] /\
  stages_returned (map Printed (reported e)) = [] /\
  tasks_added (map Printed (reported e)) = [] /\
  tasks_completed (map Printed (reported e)) = [] /\
  display (map Printed (reported e)) = [] /\
  (length (map Printed (reported e)) <= 1)%nat.
Proof. destruct e; cbn; repeat split; lia. Qed.

(** The loop over the stages keeps the display in step with the calls:
    one task is added per stage invoked, and the task of a stage is marked
    completed exactly when the stage returned; tasks are numbered in the
    order the stages run.  The loop neither starts nor stops the display. *)
Lemma run_stages_progress {W} (X : Collaborators W) (ss : list stage) :
  forall (task : nat) (w : W),
    tasks_added (trace_of (run_stages X task ss w))
      = map starting (stages_called (trace_of (run_stages X task ss w))) /\
    tasks_completed (trace_of (run_stages X task ss w))
      = zip_with (fun i s => (i, finished s))
          (seq task (length (stages_returned (trace_of (run_stages X task ss w)))))
          (stages_returned (trace_of (run_stages X task ss w))) /\
    display (trace_of (run_stages X task ss w)) = [].
Proof.
  induction ss as [|s rest IH]; intros task w; [done |].
  cbn [run_stages]. unfold_M.
  destruct (method X s w) as [[[]|e] w1]; cbn; [| done].
  destruct (IH (S task) w1) as (Ha & Hc & Hd).
  unfold trace_of in *.
  destruct (run_stages X (S task) rest w1) as [[r w2] t2]; cbn in *.
  repeat split; [by f_equal | by f_equal | done].
Qed.

Lemma pipeline_progress {W} (X : Collaborators W) (w : W) :
  printed (trace_of (pipeline X w)) = [] /\
  tasks_added (trace_of (pipeline X w))
    = map starting (stages_called (trace_of (pipeline X w))) /\
  tasks_completed (trace_of (pipeline X w))
    = zip_with (fun i s => (i, finished s))
        (seq 0 (length (stages_returned (trace_of (pipeline X w)))))
        (stages_returned (trace_of (pipeline X w))) /\
  display (trace_of (pipeline X w)) = [].
Proof.
  rewrite pipeline_unroll. split.
  - apply run_stages_calls.
  - apply run_stages_progress.
Qed.

Lemma pipeline_calls {W} (X : Collaborators W) (w : W) :
  match result_of (pipeline X w) with
  | Returns _ => calls (trace_of (pipeline X w)) = returned stage_order
  | Raises e =>
      exists pre s post,
        stage_order = pre ++ s :: post /\
        calls (trace_of (pipeline X w)) = returned pre ++ [(Method s, Some e)]
  end.
Proof. rewrite pipeline_unroll. apply run_stages_calls. Qed.

(** Walks an execution of [main] down to the outcome of each call: help;
    [--info] with each outcome of [Config] and of the print of the table; a
    build that completed, or was stopped by a stage, by [Builder] or by
    [Config]; missing file; a test of the path that raised. *)
Ltac walk_main X args w :=
  let Hh := fresh "Hhelp" in
  let He := fresh "Hfound" in
  let Hi := fresh "Hinfo" in
  destruct (show_help args) eqn:Hh;
  [ rewrite (main_show_help X args w Hh)
  | destruct (Path_exists X (config args) w) as [[|]|e] eqn:He;
    [ destruct (info args) eqn:Hi;
      [ rewrite (main_info X args w Hh He Hi), show_info_run;
        destruct (Config X (config args) w) as [[cfg|[| code | msg]] w1] eqn:Hconfig;
        [ destruct (Markup_error (info_table cfg)) as [msg|] eqn:Hrender | | | ]
      | rewrite (main_build X args w Hh He Hi), build_project_unfold;
        destruct (Config X (config args) w) as [[cfg|e] w1] eqn:Hconfig;
        [ destruct (Builder X cfg w1) as [[[]|e] w2] eqn:Hbuilder;
          [ pose proof (pipeline_progress X w2) as Hprogress;
            pose proof (pipeline_calls X w2) as Hstages;
            destruct (pipeline X w2) as [[[[]|e] w3] tp] eqn:Hpipeline
          | ]
        | ] ]
    | rewrite (main_not_found X args w Hh He)
    | rewrite (main_test_raised X args w e Hh He) ] ];
  unfold result_of, world_of, trace_of in *; cbn [fst snd] in *.

(** ** Output and display *)

(** X1. Whatever the arguments and whatever happens later, the first thing
    an execution does is print the banner. *)
Theorem banner_comes_first {W} {C : Console} (X : Collaborators W) (args : Namespace) (w : W) :
  head (trace_of (main X args w)) = Some (Printed banner_panel) /\
  head (printed (trace_of (main X args w))) = Some banner_panel.
Proof. walk_main X args w; done. Qed.

(** X2. The progress display is started at most once and is stopped on
    every path on which it was started.  Nothing is printed while it is
    live, and every stage call, task and completion mark falls between its
    start and its stop. *)
Theorem progress_display_is_stopped {W} {C : Console} (X : Collaborators W) (args : Namespace) (w : W) :
  (display (trace_of (main X args w)) = [] /\
   stages_called (trace_of (main X args w)) = [] /\
   tasks_added (trace_of (main X args w)) = [] /\
   tasks_completed (trace_of (main X args w)) = []) \/
  (exists pre mid post,
     trace_of (main X args w) = pre ++ [ProgressEnter] ++ mid ++ [ProgressExit] ++ post /\
     display pre = [] /\ display mid = [] /\ display post = [] /\
     printed mid = [] /\
     stages_called mid = stages_called (trace_of (main X args w)) /\
     tasks_added mid = tasks_added (trace_of (main X args w)) /\
     tasks_completed mid = tasks_completed (trace_of (main X args w))).
Proof.
  walk_main X args w;
    lazymatch goal with
    | Hpipeline : pipeline _ _ = _ |- _ =>
        right;
        exists [Printed banner_panel; Tested (config args) true;
                Called (ConfigNew (config args)) None; Printed (build_info_panel cfg);
                Called BuilderNew None], tp;
        destruct Hprogress as (Hp & _ & _ & Hd)
    | _ => left
    end.
  all: try done.
  - exists [Printed (success_panel cfg)].
    rewrite !stages_called_app, !tasks_added_app, !tasks_completed_app.
    cbn. by rewrite !app_nil_r.
  - destruct (reported_only_prints e) as (Hs & _ & Ha & Hc & Hd' & _).
    exists (map Printed (reported e)).
    rewrite !stages_called_app, !tasks_added_app, !tasks_completed_app, Hs, Ha, Hc.
    cbn. by rewrite !app_nil_r.
  - destruct (reported_only_prints e) as (Hs & _ & Ha & Hc & Hd & _).
    by rewrite !display_app, !stages_called_app, !tasks_added_app,
      !tasks_completed_app, Hs, Ha, Hc, Hd.
  - destruct (reported_only_prints e) as (Hs & _ & Ha & Hc & Hd & _).
    by rewrite !display_app, !stages_called_app, !tasks_added_app,
      !tasks_completed_app, Hs, Ha, Hc, Hd.
Qed.

Lemma stages_of_returned (ss : list stage) (cs : list (call * option exn)) :
  omap (fun co : call * option exn => match co with (Method s, _) => Some s | _ => None end)
       (returned ss ++ cs)
    = ss ++ omap (fun co : call * option exn =>
                    match co with (Method s, _) => Some s | _ => None end) cs /\
  omap (fun co : call * option exn => match co with (Method s, None) => Some s | _ => None end)
       (returned ss ++ cs)
    = ss ++ omap (fun co : call * option exn =>
                    match co with (Method s, None) => Some s | _ => None end) cs.
Proof.
  induction ss as [|s ss [IH1 IH2]]; [done |].
  cbn. split; f_equal; assumption.
Qed.

(** The stages a run of [pipeline] invoked are those that returned, plus
    the one that raised when the run was cut short. *)
Lemma pipeline_stages {W} (X : Collaborators W) (w : W) :
  match result_of (pipeline X w) with
  | Returns _ =>
      stages_called (trace_of (pipeline X w)) = stage_order /\
      stages_returned (trace_of (pipeline X w)) = stage_order
  | Raises e =>
      exists s,
        (Method s, Some e) ∈ calls (trace_of (pipeline X w)) /\
        stages_called (trace_of (pipeline X w))
          = stages_returned (trace_of (pipeline X w)) ++ [s]
  end.
Proof.
  pose proof (pipeline_calls X w) as H.
  unfold stages_called, stages_returned.
  destruct (result_of (pipeline X w)) as [[]|e].
  - rewrite H. done.
  - destruct H as (pre & s & post & _ & ->). exists s.
    destruct (stages_of_returned pre [(Method s, Some e)]) as [-> ->].
    split; [| by rewrite app_nil_r].
    apply elem_of_app. right. apply list_elem_of_here.
Qed.

(** X3. The display follows the stages: one task is added per stage
    invoked, with that stage's opening text; the i-th stage that returned is
    marked completed on task i with its closing text; and only the last
    task added can be left unmarked, when its stage raised. *)
Theorem progress_marks_follow_stages {W} {C : Console} (X : Collaborators W)
    (args : Namespace) (w : W) :
  tasks_added (trace_of (main X args w))
    = map starting (stages_called (trace_of (main X args w))) /\
  tasks_completed (trace_of (main X args w))
    = zip_with (fun i s => (i, finished s))
        (seq 0 (length (stages_returned (trace_of (main X args w)))))
        (stages_returned (trace_of (main X args w))) /\
  (stages_called (trace_of (main X args w)) = stages_returned (trace_of (main X args w)) \/
   exists s e,
     (Method s, Some e) ∈ calls (trace_of (main X args w)) /\
     stages_called (trace_of (main X args w))
       = stages_returned (trace_of (main X args w)) ++ [s]).
Proof.
  walk_main X args w;
    try (destruct (reported_only_prints e) as (Hs & Hr & Ha & Hc & _));
    rewrite ?stages_called_app, ?stages_returned_app, ?tasks_added_app,
      ?tasks_completed_app, ?calls_app, ?calls_reported, ?Hs, ?Hr, ?Ha, ?Hc;
    cbn; rewrite ?app_nil_r.
  all: try (repeat split; try done; by left).
  all: destruct Hprogress as (_ & Hadd & Hdone & _).
  all: pose proof (pipeline_stages X w2) as Hst; rewrite Hpipeline in Hst;
    unfold result_of, trace_of in Hst; cbn [fst snd] in Hst.
  - destruct Hst as [Hcalled Hret]. repeat split; [done | done |].
    left. by rewrite Hcalled, Hret.
  - destruct Hst as (s & Hin & Hcalled). repeat split; [done | done |].
    right. exists s, e. split; [| done].
    do 2 apply list_elem_of_further. exact Hin.
Qed.

(** ** How a build reports its end *)

Ltac unfold_panels H :=
  unfold success_panel, build_info_panel, build_failed_panel, banner_panel,
    interrupted_line, not_found_panel, info_failed_panel, help_panel in H.

(** X4. In a build, the success panel is printed exactly when the run
    returns, which is exactly when [cleanup()] returned; it is then the
    last thing the execution does, it names the output of the configuration
    that [Config] returned, and all four stages have run. *)
Theorem success_panel_means_completed {W} {C : Console} (X : Collaborators W)
    (args : Namespace) (w : W) :
  show_help args = false ->
  info args = false ->
  Path_exists X (config args) w = Returns true ->
  (result_of (main X args w) = Returns tt
     <-> (Method Cleanup, None) ∈ calls (trace_of (main X args w))) /\
  (result_of (main X args w) = Returns tt
     <-> exists cfg, success_panel cfg ∈ printed (trace_of (main X args w))) /\
  (result_of (main X args w) = Returns tt ->
     exists cfg,
       (Config X (config args) w).1 = Returns cfg /\
       last (trace_of (main X args w)) = Some (Printed (success_panel cfg)) /\
       stages_called (trace_of (main X args w)) = stage_order).
Proof.
  intros Hh Hi He.
  walk_main X args w; try congruence.
  - (* all six calls returned *)
    destruct Hprogress as (Hp & _). cbn in Hstages.
    rewrite !calls_app, !printed_app, !stages_called_app, Hp.
    unfold stages_called at 2. rewrite Hstages. cbn.
    split; [split; [intros _; member | done] |].
    split; [split; [intros _; exists cfg; member | done] |].
    intros _. exists cfg. repeat split.
    + replace (tp ++ [ProgressExit; Printed (success_panel cfg)])
        with ((tp ++ [ProgressExit]) ++ [Printed (success_panel cfg)])
        by (by rewrite <- app_assoc).
      by rewrite app_comm_cons, last_snoc.
    + unfold stages_called. by rewrite Hstages.
  - (* a stage raised *)
    destruct Hprogress as (Hp & _). cbn in Hstages.
    destruct Hstages as (pre & s & post & Hcut & Hcalls).
    rewrite !calls_app, !printed_app, calls_reported, printed_reported, Hp, Hcalls.
    split; [| split]; [split | split |]; try done.
    + apply stage_order_cut in Hcut as [[-> ->] | [[-> ->] | [[-> ->] | [-> ->]]]];
        cbn; intros H; no_member H.
    + intros [cfg' H]. cbn in H. destruct e; cbn in H; unfold_panels H; no_member H.
  - (* Builder raised *)
    rewrite !calls_app, !printed_app, calls_reported, printed_reported.
    split; [| split]; [split | split |]; try done.
    + cbn. intros H. no_member H.
    + intros [cfg' H]. cbn in H. destruct e; cbn in H; unfold_panels H; no_member H.
  - (* Config raised *)
    rewrite !calls_app, !printed_app, calls_reported, printed_reported.
    split; [| split]; [split | split |]; try done.
    + cbn. intros H. no_member H.
    + intros [cfg' H]. cbn in H. destruct e; cbn in H; unfold_panels H; no_member H.
Qed.

Lemma success_panel_means_completed_witness :
  result_of (main (scripted all_fine) build_args []) = Returns tt /\
  ~ (exists cfg,
       success_panel cfg ∈
         printed (trace_of (main (scripted (failing_at Cleanup (Exception "rmtree failed")))
                              build_args []))).
Proof.
  split.
  - destruct (success_panel_means_completed (scripted all_fine) build_args [])
      as (Hdone & _); [reflexivity | reflexivity | reflexivity |].
    apply Hdone. member.
  - destruct (success_panel_means_completed
                (scripted (failing_at Cleanup (Exception "rmtree failed"))) build_args [])
      as (_ & Hshown & _); [reflexivity | reflexivity | reflexivity |].
    intros H. apply Hshown in H. discriminate H.
Defined.

(** X5. A build that fails before the pipeline: when [Config()] raises an
    [Exception], the error panel with its message follows the banner at
    once, with no build-info panel, no [Builder] and no display; when
    [Builder()] raises one, the build-info panel of the loaded configuration
    has already been shown.  Either way the status is 1 and no stage runs. *)
Theorem failure_before_the_pipeline {W} {C : Console} (X : Collaborators W)
    (args : Namespace) (w : W) :
  show_help args = false ->
  info args = false ->
  Path_exists X (config args) w = Returns true ->
  (forall msg w1,
     Config X (config args) w = (Raises (Exception msg), w1) ->
     main X args w =
       (Raises (SystemExit 1), w1,
        [Printed banner_panel; Tested (config args) true;
         Called (ConfigNew (config args)) (Some (Exception msg));
         Printed (build_failed_panel msg)])) /\
  (forall cfg msg w1 w2,
     Config X (config args) w = (Returns cfg, w1) ->
     Builder X cfg w1 = (Raises (Exception msg), w2) ->
     main X args w =
       (Raises (SystemExit 1), w2,
        [Printed banner_panel; Tested (config args) true;
         Called (ConfigNew (config args)) None;
         Printed (build_info_panel cfg);
         Called BuilderNew (Some (Exception msg));
         Printed (build_failed_panel msg)])).
Proof.
  intros Hh Hi He. rewrite (main_build X args w Hh He Hi), build_project_unfold.
  split.
  - intros msg w1 ->. reflexivity.
  - intros cfg msg w1 w2 -> ->. reflexivity.
Qed.

Lemma failure_before_the_pipeline_witness :
  printed (trace_of (main (scripted bad_config) build_args [])) =
    [banner_panel; build_failed_panel "'project_name'"].
Proof.
  destruct (failure_before_the_pipeline (scripted bad_config) build_args [])
    as [Hconfig _]; [reflexivity | reflexivity | reflexivity |].
  rewrite (Hconfig "'project_name'" []); reflexivity.
Defined.

(** X6. An interrupt while the configuration is loaded is handled only in a
    build.  With [--info] the [KeyboardInterrupt] raised by [Config()]
    leaves [show_info] and [main] uncaught and nothing but the banner has
    been printed; without [--info] it is reported by the interrupt line and
    turned into [sys.exit(1)]. *)
Theorem interrupt_while_loading {W} {C : Console} (X : Collaborators W)
    (args : Namespace) (w : W) :
  show_help args = false ->
  Path_exists X (config args) w = Returns true ->
  (Config X (config args) w).1 = Raises KeyboardInterrupt ->
  (info args = true ->
     result_of (main X args w) = Raises KeyboardInterrupt /\
     printed (trace_of (main X args w)) = [banner_panel]) /\
  (info args = false ->
     result_of (main X args w) = Raises (SystemExit 1) /\
     printed (trace_of (main X args w)) = [banner_panel; interrupted_line]).
Proof.
  intros Hh He Hc. split; intros Hi.
  - rewrite (main_info X args w Hh He Hi), show_info_run.
    destruct (Config X (config args) w) as [[cfg|e] w1]; simplify_eq/=. done.
  - rewrite (main_build X args w Hh He Hi), build_project_unfold.
    destruct (Config X (config args) w) as [[cfg|e] w1]; simplify_eq/=. done.
Qed.

Lemma interrupt_while_loading_witness :
  result_of
    (main (scripted {| on_disk := ["config.yaml"]; loads := Raises KeyboardInterrupt;
                       builds := Returns tt; ends _ := Returns tt |})
          info_args []) = Raises KeyboardInterrupt.
Proof.
  destruct (interrupt_while_loading
              (scripted {| on_disk := ["config.yaml"]; loads := Raises KeyboardInterrupt;
                           builds := Returns tt; ends _ := Returns tt |})
              info_args [])
    as [Hinfo _]; [reflexivity | reflexivity | reflexivity |].
  destruct (Hinfo eq_refl) as [Hres _]. exact Hres.
Defined.



(** ** The calls of an execution *)

(** X8. The calls an execution makes are an initial segment of [Config],
    [Builder], [create_temp_env], [install_dependencies],
    [build_with_nuitka], [cleanup]: none is made twice or out of order, the
    configuration loaded is the one named by the arguments, and a call that
    raises is the last one made. *)
Theorem calls_follow_the_order {W} {C : Console} (X : Collaborators W) (args : Namespace) (w : W) :
  (calls (trace_of (main X args w))).*1 `prefix_of` call_order (config args) /\
  NoDup (calls (trace_of (main X args w))).*1 /\
  (forall c e,
     (c, Some e) ∈ calls (trace_of (main X args w)) ->
     last (calls (trace_of (main X args w))) = Some (c, Some e)).
Proof.
  analyse_main X args w;
    rewrite ?calls_banner, ?calls_app, ?calls_reported, ?app_nil_r, Hcalls; cbn;
    (split; [by eexists | split]).
  all: try (intros c' e' H; no_member H; done).
  all: repeat (apply NoDup_cons; split; [intros H; no_member H |]); apply NoDup_nil_2.
Qed.

Lemma calls_follow_the_order_witness :
  last (calls (trace_of (main (scripted bad_config) build_args [])))
    = Some (ConfigNew "config.yaml", Some (Exception "'project_name'")).
Proof.
  destruct (calls_follow_the_order (scripted bad_config) build_args [])
    as (_ & _ & Hlast).
  apply Hlast. member.
Defined.

(** X9. A build in which every call returns: the builder is made from the
    configuration that [Config] returned, each stage runs in the world the
    call before it left, and the world the process leaves is the one
    [cleanup] left. *)
Theorem completed_build_threads_the_world {W} {C : Console} (X : Collaborators W)
    (args : Namespace) (w w1 w2 w3 w4 w5 w6 : W) (cfg : ProjectConfig) :
  show_help args = false ->
  info args = false ->
  Path_exists X (config args) w = Returns true ->
  Config X (config args) w = (Returns cfg, w1) ->
  Builder X cfg w1 = (Returns tt, w2) ->
  create_temp_env X w2 = (Returns tt, w3) ->
  install_dependencies X w3 = (Returns tt, w4) ->
  build_with_nuitka X w4 = (Returns tt, w5) ->
  cleanup X w5 = (Returns tt, w6) ->
  result_of (main X args w) = Returns tt /\
  world_of (main X args w) = w6 /\
  printed (trace_of (main X args w))
    = [banner_panel; build_info_panel cfg; success_panel cfg] /\
  calls (trace_of (main X args w))
    = map (fun c => (c, None)) (call_order (config args)).
Proof.
  intros Hh Hi He Hconfig Hbuilder Henv Hdeps Hcompile Hclean.
  rewrite (main_build X args w Hh He Hi), build_project_unfold, Hconfig, Hbuilder.
  unfold pipeline. unfold_M. rewrite Henv. cbn. rewrite Hdeps. cbn.
  rewrite Hcompile. cbn. rewrite Hclean. done.
Qed.

Lemma completed_build_threads_the_world_witness :
  world_of (main (scripted all_fine) build_args [])
    = [CreateTempEnv; InstallDependencies; BuildWithNuitka; Cleanup].
Proof.
  destruct (completed_build_threads_the_world (scripted all_fine) build_args
              [] [] [] [CreateTempEnv] [CreateTempEnv; InstallDependencies]
              [CreateTempEnv; InstallDependencies; BuildWithNuitka]
              [CreateTempEnv; InstallDependencies; BuildWithNuitka; Cleanup] demo)
    as (_ & Hworld & _); [reflexivity .. |].
  exact Hworld.
Defined.

(** ** The information screen *)

(** X10. With [--info] the execution depends on the collaborators only
    through the test of the path and [Config]: whatever [Builder] and the
    stages would do, the result, the world left and the log are the same. *)
Theorem info_ignores_the_builder {W} {C : Console} (X X' : Collaborators W)
    (args : Namespace) (w : W) :
  info args = true ->
  Path_exists X (config args) w = Path_exists X' (config args) w ->
  Config X (config args) w = Config X' (config args) w ->
  main X args w = main X' args w.
Proof.
  intros Hi He Hc.
  destruct (show_help args) eqn:Hh.
  { by rewrite !main_show_help. }
  destruct (Path_exists X (config args) w) as [[|]|e] eqn:Hfound; symmetry in He.
  - by rewrite (main_info X args w Hh Hfound Hi), (main_info X' args w Hh He Hi),
      !show_info_run, Hc.
  - by rewrite (main_not_found X args w Hh Hfound), (main_not_found X' args w Hh He).
  - by rewrite (main_test_raised X args w e Hh Hfound),
      (main_test_raised X' args w e Hh He).
Qed.

Lemma info_ignores_the_builder_witness :
  main (scripted all_fine) info_args []
    = main (scripted (failing_at CreateTempEnv KeyboardInterrupt)) info_args [].
Proof.
  apply (info_ignores_the_builder (scripted all_fine)
           (scripted (failing_at CreateTempEnv KeyboardInterrupt)) info_args []);
    reflexivity.
Defined.

Lemma string_length_app (s t : string) :
  String.length (s +:+ t) = (String.length s + String.length t)%nat.
Proof.
  induction s as [|a s IH]; [done |].
  change (String a s +:+ t) with (String a (s +:+ t)). cbn. by rewrite IH.
Qed.

Lemma string_app_inv_tail (s1 s2 t : string) : s1 +:+ t = s2 +:+ t -> s1 = s2.
Proof.
  revert s2. induction s1 as [|a s1 IH]; intros [|b s2] H.
  - done.
  - apply (f_equal String.length) in H. rewrite !string_length_app in H. cbn in H. lia.
  - apply (f_equal String.length) in H. rewrite !string_length_app in H. cbn in H. lia.
  - change (String a (s1 +:+ t) = String b (s2 +:+ t)) in H.
    injection H as -> H. f_equal. by apply IH.
Qed.

(** The text of a count, as [show_info] builds it, gives the count back. *)
Lemma count_text_inj (n m : nat) (unit_name : string) :
  (4 < String.length unit_name)%nat ->
  (if (0 <? n)%nat then pretty n +:+ unit_name else "None")
    = (if (0 <? m)%nat then pretty m +:+ unit_name else "None") ->
  n = m.
Proof.
  intros Hlen H.
  destruct (Nat.ltb_spec 0 n), (Nat.ltb_spec 0 m).
  - apply string_app_inv_tail in H. by apply (inj pretty).
  - apply (f_equal String.length) in H. rewrite string_length_app in H.
    change (String.length "None") with 4%nat in H. lia.
  - apply (f_equal String.length) in H. rewrite string_length_app in H.
    change (String.length "None") with 4%nat in H. lia.
  - lia.
Qed.

(** X11. The information table is a summary: from it one reads back the
    three names and the numbers of dependencies and of packages, and it
    holds nothing else of the two lists; an icon path that is empty is
    shown like one that is absent. *)
Theorem info_table_is_a_summary (cfg cfg' : ProjectConfig) :
  (info_table cfg = info_table cfg' ->
     project_name cfg = project_name cfg' /\
     main_file cfg = main_file cfg' /\
     output_name cfg = output_name cfg' /\
     length (project_libs cfg) = length (project_libs cfg') /\
     length (include_packages cfg) = length (include_packages cfg')) /\
  (project_name cfg = project_name cfg' ->
   main_file cfg = main_file cfg' ->
   output_name cfg = output_name cfg' ->
   icon_file cfg = icon_file cfg' \/
     (truthy (icon_file cfg) = false /\ truthy (icon_file cfg') = false) ->
   length (project_libs cfg) = length (project_libs cfg') ->
   length (include_packages cfg) = length (include_packages cfg') ->
   info_table cfg = info_table cfg').
Proof.
  unfold info_table. split.
  - intros [= Hname Hmain Hout _ Hdeps Hpkgs].
    apply count_text_inj in Hdeps; [| cbn; lia].
    apply count_text_inj in Hpkgs; [| cbn; lia].
    done.
  - intros -> -> -> Hicon -> ->.
    destruct Hicon as [-> | [-> ->]]; done.
Qed.

Lemma info_table_is_a_summary_witness :
  info_table {| project_name := "demo"; main_file := "app.py"; output_name := "app";
                icon_file := Some ""; project_libs := ["rich"; "pyyaml"];
                include_packages := [] |}
  = info_table {| project_name := "demo"; main_file := "app.py"; output_name := "app";
                  icon_file := None; project_libs := ["requests"; "click"];
                  include_packages := [] |}.
Proof.
  apply (info_table_is_a_summary
           {| project_name := "demo"; main_file := "app.py"; output_name := "app";
              icon_file := Some ""; project_libs := ["rich"; "pyyaml"];
              include_packages := [] |}
           {| project_name := "demo"; main_file := "app.py"; output_name := "app";
              icon_file := None; project_libs := ["requests"; "click"];
              include_packages := [] |});
    solve [reflexivity | right; split; reflexivity].
Defined.
